(** * sqlite3/sqlite_cfg.h: the compile-time configuration of the embedded engine

    The header is a list of object-like macro definitions.  It is embedded
    here as its text, together with the part of a C preprocessor that reads
    such a header: the split into physical lines, the classification of each
    line (blank, line comment, [#define] directive, anything else) and the
    macro table that results from processing the directives in order. *)

From Stdlib Require Import ZArith Ascii String.
From stdpp Require Import gmap strings list fin_maps.

Local Open Scope Z_scope.

(** ** The source text *)

Module Src.

(** [sqlite3/sqlite_cfg.h], character for character.  The last line has no
    terminating newline. *)
Definition sqlite_cfg_h : string :=
"// Platform Configuration

#define SQLITE_OS_OTHER 1
#define SQLITE_BYTEORDER 1234

#define HAVE_ISNAN 1
#define HAVE_USLEEP 1
#define HAVE_MALLOC_USABLE_SIZE 1

// Recommended Options

#define SQLITE_DQS 0
#define SQLITE_THREADSAFE 0
#define SQLITE_DEFAULT_MEMSTATUS 0
#define SQLITE_DEFAULT_WAL_SYNCHRONOUS 1
#define SQLITE_LIKE_DOESNT_MATCH_BLOBS
#define SQLITE_MAX_EXPR_DEPTH 0
#define SQLITE_OMIT_DECLTYPE
#define SQLITE_OMIT_DEPRECATED
#define SQLITE_OMIT_PROGRESS_CALLBACK
#define SQLITE_OMIT_SHARED_CACHE
#define SQLITE_OMIT_AUTOINIT
#define SQLITE_USE_ALLOCA

// Need this to access WAL databases without the use of shared memory.
#define SQLITE_DEFAULT_LOCKING_MODE 1
// Go uses UTF-8 everywhere.
#define SQLITE_OMIT_UTF16
// Remove some testing code.
#define SQLITE_UNTESTABLE".

End Src.

(** ** Characters and strings *)

Module Lex.

Definition LF : ascii := "010"%char.
Definition BACKSLASH : ascii := "092"%char.
Definition DQUOTE : ascii := "034"%char.

(** White space inside a line: space, HT, VT, FF and CR. *)
Definition is_blank (c : ascii) : bool :=
  match c with
  | " " | "009" | "011" | "012" | "013" => true
  | _ => false
  end%char.

Definition is_digit (c : ascii) : bool :=
  let n := nat_of_ascii c in (48 <=? n)%nat && (n <=? 57)%nat.

Definition is_alpha (c : ascii) : bool :=
  let n := nat_of_ascii c in
  ((65 <=? n)%nat && (n <=? 90)%nat) || ((97 <=? n)%nat && (n <=? 122)%nat)
  || (n =? 95)%nat.

(** An identifier character: a letter, a digit or the underscore. *)
Definition is_ident_char (c : ascii) : bool := is_alpha c || is_digit c.

Fixpoint forallb_string (p : ascii → bool) (s : string) : bool :=
  match s with
  | EmptyString => true
  | String c r => p c && forallb_string p r
  end.

Fixpoint count_char (a : ascii) (s : string) : nat :=
  match s with
  | EmptyString => 0%nat
  | String c r => ((if Ascii.eqb c a then 1 else 0) + count_char a r)%nat
  end.

Fixpoint drop_blanks (s : string) : string :=
  match s with
  | String c r => if is_blank c then drop_blanks r else s
  | EmptyString => EmptyString
  end.

(** Both ends trimmed. *)
Definition trim (s : string) : string :=
  String.rev (drop_blanks (String.rev (drop_blanks s))).

(** The longest prefix of identifier characters, and what follows it. *)
Fixpoint span_ident (s : string) : string * string :=
  match s with
  | String c r =>
      if is_ident_char c
      then let '(w, rest) := span_ident r in (String c w, rest)
      else (EmptyString, s)
  | EmptyString => (EmptyString, EmptyString)
  end.

Fixpoint is_prefix (p s : string) : bool :=
  match p, s with
  | EmptyString, _ => true
  | String a p', String b s' => Ascii.eqb a b && is_prefix p' s'
  | String _ _, EmptyString => false
  end.

(** [mentions p s]: [p] occurs somewhere in [s]. *)
Fixpoint mentions (p s : string) : bool :=
  is_prefix p s ||
  match s with
  | EmptyString => false
  | String _ r => mentions p r
  end.

(** The pieces of [s] between occurrences of [sep]; never empty. *)
Fixpoint split_on (sep : ascii) (s : string) : list string :=
  match s with
  | EmptyString => [EmptyString]
  | String c r =>
      if Ascii.eqb c sep then EmptyString :: split_on sep r
      else match split_on sep r with
           | l :: ls => String c l :: ls
           | [] => [String c EmptyString]
           end
  end.

Fixpoint join_with (sep : ascii) (ls : list string) : string :=
  match ls with
  | [] => EmptyString
  | [l] => l
  | l :: ls' => l +:+ String sep (join_with sep ls')
  end.

(** The physical lines of a text.  A newline terminates a line, so a text
    that ends in a newline does not have an empty line after it. *)
Definition lines (s : string) : list string :=
  let ps := split_on LF s in
  match last ps with
  | Some EmptyString => removelast ps
  | _ => ps
  end.

(** The number of newline characters, which is what [wc -l] reports. *)
Definition newline_count (s : string) : nat := count_char LF s.

(** The text up to the first [//] that is not inside a string literal. *)
Fixpoint strip_line_comment (in_str : bool) (s : string) : string :=
  match s with
  | EmptyString => EmptyString
  | String c r =>
      if Ascii.eqb c DQUOTE then String c (strip_line_comment (negb in_str) r)
      else if negb in_str && is_prefix "//" s then EmptyString
      else String c (strip_line_comment in_str r)
  end.

(** The value of a string of decimal digits. *)
Fixpoint digits_value (acc : Z) (s : string) : Z :=
  match s with
  | EmptyString => acc
  | String c r => digits_value (10 * acc + Z.of_nat (nat_of_ascii c - 48)) r
  end.

End Lex.

(** ** Reading the header as a preprocessor does *)

Module Cpp.
Import Lex.

(** The replacement text of an object-like macro, by shape. *)
Inductive value : Type :=
| VAbsent                (* no replacement text: the macro is only defined *)
| VInt (n : Z)           (* a decimal integer literal *)
| VMode (s : string)     (* one identifier or one string literal *)
| VOther (s : string).   (* any other token sequence *)

Global Instance value_eq_dec : EqDecision value.
Proof. solve_decision. Defined.

(** A physical line of the header. *)
Inductive line : Type :=
| Blank
| Comment (text : string)
| Define (name body : string)      (* [#define NAME] or [#define NAME body] *)
| DefineFn (name rest : string)    (* [#define NAME(...) ...] *)
| Other (text : string).

Global Instance line_eq_dec : EqDecision line.
Proof. solve_decision. Defined.

Definition is_identifier (s : string) : bool :=
  match s with
  | EmptyString => false
  | String c _ => is_alpha c && forallb_string is_ident_char s
  end.

(** [0], or digits that do not start with [0] (which would be octal). *)
Definition is_decimal_literal (s : string) : bool :=
  match s with
  | EmptyString => false
  | String c r =>
      forallb_string is_digit s
      && (negb (Ascii.eqb c "0") || String.eqb r EmptyString)
  end.

Definition is_string_literal (s : string) : bool :=
  match s with
  | String c r =>
      Ascii.eqb c DQUOTE && is_prefix (String DQUOTE EmptyString) (String.rev r)
      && (count_char DQUOTE s =? 2)%nat
  | EmptyString => false
  end.

Definition value_of (body : string) : value :=
  if String.eqb body EmptyString then VAbsent
  else if is_decimal_literal body then VInt (digits_value 0 body)
  else if is_identifier body || is_string_literal body then VMode body
  else VOther body.

(** What follows the [#] of a directive line. *)
Definition parse_directive (whole s : string) : line :=
  let '(kw, rest) := span_ident (drop_blanks s) in
  if String.eqb kw "define" then
    let '(name, rest') := span_ident (drop_blanks rest) in
    if is_identifier name then
      match rest' with
      | String "(" _ => DefineFn name rest'
      | _ => Define name (trim rest')
      end
    else Other whole
  else Other whole.

Definition classify (l : string) : line :=
  match drop_blanks l with
  | EmptyString => Blank
  | String "/" (String "/" text) => Comment (trim text)
  | String "#" r => parse_directive l (strip_line_comment false r)
  | String _ _ => Other l
  end.

(** The macro table is a finite map from macro names to values.  A
    [#define] enters its macro, replacing an earlier value of the same name;
    all other lines leave the table as it is. *)
Definition process_line (env : gmap string value) (l : line) : gmap string value :=
  match l with
  | Define name body => <[name := value_of body]> env
  | _ => env
  end.

(** Entering one macro of a list of definitions. *)
Definition enter (env : gmap string value) (e : string * value) : gmap string value :=
  <[e.1 := e.2]> env.

Definition process_lines (env : gmap string value) (ls : list line) : gmap string value :=
  foldl process_line env ls.

Definition preprocess (text : string) : gmap string value :=
  process_lines ∅ (classify <$> lines text).

(** The object-like macros of a header in the order of their definition. *)
Fixpoint defines (ls : list line) : list (string * value) :=
  match ls with
  | [] => []
  | Define name body :: r => (name, value_of body) :: defines r
  | _ :: r => defines r
  end.

(** [#define NAME VALUE]: an object-like macro with a replacement text. *)
Definition is_valued_define (l : line) : bool :=
  match l with
  | Define _ body => negb (String.eqb body EmptyString)
  | _ => false
  end.

(** [#define NAME]: an object-like macro without a replacement text. *)
Definition is_bare_define (l : line) : bool :=
  match l with
  | Define _ body => String.eqb body EmptyString
  | _ => false
  end.

(** The macro a line defines, object-like or function-like. *)
Definition line_name (l : line) : option string :=
  match l with
  | Define name _ | DefineFn name _ => Some name
  | _ => None
  end.

Definition is_comment (l : line) : bool :=
  match l with Comment _ => true | _ => false end.

Definition is_blank_line (l : line) : bool :=
  match l with Blank => true | _ => false end.

(** A header is read in blocks: a comment line opens a block and is its
    heading, and the macros defined up to the next comment line are the
    entries of the block.  Macros before the first comment are in a block
    with an empty heading. *)
Record block : Type := Block { heading : string; entries : list (string * value) }.

Fixpoint blocks_go (cur : block) (ls : list line) : list block :=
  match ls with
  | [] => [cur]
  | Comment text :: r => cur :: blocks_go (Block text []) r
  | Define name body :: r =>
      blocks_go (Block (heading cur) (entries cur ++ [(name, value_of body)])) r
  | _ :: r => blocks_go cur r
  end.

Definition blocks (ls : list line) : list block := blocks_go (Block EmptyString []) ls.

Definition block_named (h : string) (bs : list block) : option block :=
  find (λ b, String.eqb (heading b) h) bs.

Definition is_int (v : value) : bool :=
  match v with VInt _ => true | _ => false end.

End Cpp.

(** ** The configuration *)

Module Cfg.
Import Lex Cpp.

Definition source_lines : list string := lines Src.sqlite_cfg_h.

Definition parsed : list line := classify <$> source_lines.

(** The macros of the header in source order. *)
Definition directives : list (string * value) := defines parsed.

(** The flag mapping: the macro table after the header has been read. *)
Definition flags : gmap string value := preprocess Src.sqlite_cfg_h.

(** *** Readings used by the statements below *)

Definition upcase_char (c : ascii) : ascii :=
  let n := nat_of_ascii c in
  if (97 <=? n)%nat && (n <=? 122)%nat then ascii_of_nat (n - 32) else c.

Fixpoint upcase (s : string) : string :=
  match s with
  | EmptyString => EmptyString
  | String c r => String (upcase_char c) (upcase r)
  end.

Definition value_text (v : value) : string :=
  match v with
  | VAbsent | VInt _ => EmptyString
  | VMode s | VOther s => s
  end.

(** An entry that could select WAL as the journal mode: an entry other than
    the synchronous level [SQLITE_DEFAULT_WAL_SYNCHRONOUS] whose name speaks
    of the journal or of WAL, or whose value does (in any letter case). *)
Definition selects_wal_journal_mode (e : string * value) : bool :=
  negb (String.eqb e.1 "SQLITE_DEFAULT_WAL_SYNCHRONOUS")
  && (mentions "JOURNAL" (upcase e.1) || mentions "WAL" (upcase e.1)
      || mentions "JOURNAL" (upcase (value_text e.2))
      || mentions "WAL" (upcase (value_text e.2))).

(** The three shapes a flag's value may have. *)
Definition is_flag_shape (v : value) : bool :=
  match v with
  | VAbsent | VInt _ | VMode _ => true
  | VOther _ => false
  end.

(** A line that may stand in a flag list. *)
Definition is_flag_list_line (l : line) : bool :=
  is_blank_line l || is_comment l || is_valued_define l || is_bare_define l.

(** The statement that some entry of the flag mapping sets the default
    journal mode to WAL and that SQLITE_DEFAULT_WAL_SYNCHRONOUS is 1. *)
Definition journal_mode_wal_as_stated : Prop :=
  (∃ n v, flags !! n = Some v ∧ selects_wal_journal_mode (n, v) = true)
  ∧ flags !! "SQLITE_DEFAULT_WAL_SYNCHRONOUS" = Some (VInt 1).

(** The statement that the file has 29 lines, each of them a
    [#define NAME VALUE]. *)
Definition all_lines_valued_defines_as_stated : Prop :=
  length source_lines = 29%nat ∧
  Forall (λ l, is_valued_define (classify l) = true) source_lines.

End Cfg.

(** ** The header in use *)

Module Use.
Import Lex Cpp Cfg.
(** Reading the header in a translation unit whose macro table is [env]. *)
Definition include_cfg (env : gmap string value) : gmap string value :=
  process_lines env parsed.

(** The macro that a line enters into the table, if it enters one. *)
Definition entered (l : line) : option string :=
  match l with Define name _ => Some name | _ => None end.

(** The names the header defines, in source order. *)
Definition flag_names : list string :=
  [ "SQLITE_OS_OTHER"; "SQLITE_BYTEORDER"; "HAVE_ISNAN"; "HAVE_USLEEP";
    "HAVE_MALLOC_USABLE_SIZE"; "SQLITE_DQS"; "SQLITE_THREADSAFE";
    "SQLITE_DEFAULT_MEMSTATUS"; "SQLITE_DEFAULT_WAL_SYNCHRONOUS";
    "SQLITE_LIKE_DOESNT_MATCH_BLOBS"; "SQLITE_MAX_EXPR_DEPTH";
    "SQLITE_OMIT_DECLTYPE"; "SQLITE_OMIT_DEPRECATED";
    "SQLITE_OMIT_PROGRESS_CALLBACK"; "SQLITE_OMIT_SHARED_CACHE";
    "SQLITE_OMIT_AUTOINIT"; "SQLITE_USE_ALLOCA"; "SQLITE_DEFAULT_LOCKING_MODE";
    "SQLITE_OMIT_UTF16"; "SQLITE_UNTESTABLE" ].

(** The names the header defines with no replacement text. *)
Definition presence_only_names : list string :=
  [ "SQLITE_LIKE_DOESNT_MATCH_BLOBS"; "SQLITE_OMIT_DECLTYPE";
    "SQLITE_OMIT_DEPRECATED"; "SQLITE_OMIT_PROGRESS_CALLBACK";
    "SQLITE_OMIT_SHARED_CACHE"; "SQLITE_OMIT_AUTOINIT"; "SQLITE_USE_ALLOCA";
    "SQLITE_OMIT_UTF16"; "SQLITE_UNTESTABLE" ].

(** What its name says about the value of a flag: an [SQLITE_OMIT_] flag
    has no value, a [HAVE_] flag is 1 and an [SQLITE_DEFAULT_] flag is an
    integer. *)
Definition value_fits_name (e : string * value) : bool :=
  (if is_prefix "SQLITE_OMIT_" e.1 then bool_decide (e.2 = VAbsent) else true)
  && (if is_prefix "HAVE_" e.1 then bool_decide (e.2 = VInt 1) else true)
  && (if is_prefix "SQLITE_DEFAULT_" e.1 then is_int e.2 else true).

(** An upper-case identifier in the name space of the engine or of the
    platform capabilities. *)
Definition is_flag_name (n : string) : bool :=
  is_identifier n && String.eqb (upcase n) n
  && (is_prefix "SQLITE_" n || is_prefix "HAVE_" n).

End Use.

(** Closed goals about the header are settled by running the reader. *)
Ltac by_evaluation := vm_compute; reflexivity.

(** ** General facts about the reader *)

Section reader_facts.
Import Lex Cpp.

(** *** Lines: splitting undoes joining *)

Lemma split_on_no_sep sep (l : string) :
  count_char sep l = 0%nat → split_on sep l = [l].
Proof.
  induction l as [|c l IH]; simpl; [done|].
  destruct (Ascii.eqb c sep); [done|].
  intros H. by rewrite IH.
Qed.

Lemma split_on_app sep (l r : string) :
  count_char sep l = 0%nat →
  split_on sep (l +:+ String sep r) = l :: split_on sep r.
Proof.
  induction l as [|c l IH]; simpl.
  - intros _. by rewrite Ascii.eqb_refl.
  - destruct (Ascii.eqb c sep); [done|].
    intros H. by rewrite IH.
Qed.

Lemma split_on_join sep (ls : list string) :
  ls ≠ [] → Forall (λ l, count_char sep l = 0%nat) ls →
  split_on sep (join_with sep ls) = ls.
Proof.
  intros Hne Hall. induction Hall as [|l ls Hl Hls IH]; [done|].
  destruct ls as [|l' ls].
  - simpl. by apply split_on_no_sep.
  - change (join_with sep (l :: l' :: ls))
      with (l +:+ String sep (join_with sep (l' :: ls))).
    rewrite split_on_app by done. f_equal. by apply IH.
Qed.

(** *** Directive lines *)

Lemma append_cons c (s r : string) : String c s +:+ r = String c (s +:+ r).
Proof. reflexivity. Qed.

Lemma ident_char_not_blank c : is_ident_char c = true → is_blank c = false.
Proof. destruct c as [[] [] [] [] [] [] [] []]; vm_compute; congruence. Qed.

Lemma ident_char_plain c :
  is_ident_char c = true →
  Ascii.eqb c DQUOTE = false ∧ Ascii.eqb "/" c = false ∧ Ascii.eqb c "(" = false.
Proof. destruct c as [[] [] [] [] [] [] [] []]; vm_compute; intuition congruence. Qed.

Lemma digit_ident_char c : is_digit c = true → is_ident_char c = true.
Proof. unfold is_ident_char. intros ->. apply orb_true_r. Qed.

Lemma forallb_string_impl (p q : ascii → bool) (s : string) :
  (∀ c, p c = true → q c = true) →
  forallb_string p s = true → forallb_string q s = true.
Proof.
  intros Hpq. induction s as [|c s IH]; simpl; [done|].
  intros [Hc Hs]%andb_prop. by rewrite (Hpq c Hc), IH.
Qed.

Lemma forallb_string_rev_app p (s acc : string) :
  forallb_string p (String.rev_app s acc)
  = forallb_string p s && forallb_string p acc.
Proof.
  revert acc. induction s as [|c s IH]; intros acc; simpl; [done|].
  rewrite IH. simpl. destruct (p c), (forallb_string p s); simpl; try done.
Qed.

Lemma rev_app_rev_app (s a b : string) :
  String.rev_app (String.rev_app s a) b = String.rev_app a (s +:+ b).
Proof.
  revert a b. induction s as [|c s IH]; intros a b; simpl; [done|].
  by rewrite IH.
Qed.

Lemma append_empty (s : string) : s +:+ EmptyString = s.
Proof. induction s as [|c s IH]; [done|]. by rewrite append_cons, IH. Qed.

Lemma rev_involutive (s : string) : String.rev (String.rev s) = s.
Proof. unfold String.rev. rewrite rev_app_rev_app. simpl. apply append_empty. Qed.

Lemma drop_blanks_ident (s : string) :
  forallb_string is_ident_char s = true → drop_blanks s = s.
Proof.
  destruct s as [|c s]; simpl; [done|].
  intros [Hc _]%andb_prop. by rewrite (ident_char_not_blank c Hc).
Qed.

(** Trimming leaves a word alone. *)
Lemma trim_ident (s : string) :
  forallb_string is_ident_char s = true → trim s = s.
Proof.
  intros Hs. unfold trim. rewrite (drop_blanks_ident s Hs).
  rewrite drop_blanks_ident; [apply rev_involutive|].
  unfold String.rev. rewrite forallb_string_rev_app, Hs. done.
Qed.

Lemma span_ident_word (s r : string) :
  forallb_string is_ident_char s = true →
  span_ident r = (EmptyString, r) →
  span_ident (s +:+ r) = (s, r).
Proof.
  intros Hs Hr. induction s as [|c s IH]; [done|].
  simpl in Hs. apply andb_prop in Hs as [Hc Hs].
  rewrite append_cons. simpl. by rewrite Hc, IH.
Qed.

Lemma strip_line_comment_step (in_str : bool) c (r : string) :
  Ascii.eqb c DQUOTE = false → Ascii.eqb "/" c = false →
  strip_line_comment in_str (String c r) = String c (strip_line_comment in_str r).
Proof.
  intros Hq Hslash.
  change (strip_line_comment in_str (String c r))
    with (if Ascii.eqb c DQUOTE then String c (strip_line_comment (negb in_str) r)
          else if negb in_str && (Ascii.eqb "/" c && is_prefix "/" r) then EmptyString
          else String c (strip_line_comment in_str r)).
  by rewrite Hq, Hslash, andb_false_r.
Qed.

Lemma strip_line_comment_word (in_str : bool) (s r : string) :
  forallb_string is_ident_char s = true →
  strip_line_comment in_str (s +:+ r) = s +:+ strip_line_comment in_str r.
Proof.
  intros Hs. induction s as [|c s IH]; [done|].
  simpl in Hs. apply andb_prop in Hs as [Hc Hs].
  destruct (ident_char_plain c Hc) as (Hq & Hslash & _).
  rewrite !append_cons, strip_line_comment_step by done. by rewrite IH.
Qed.

Lemma is_identifier_chars (s : string) :
  is_identifier s = true → forallb_string is_ident_char s = true.
Proof. destruct s; [done|]. unfold is_identifier. by intros [_ ?]%andb_prop. Qed.

Lemma strip_line_comment_ident (in_str : bool) (s : string) :
  forallb_string is_ident_char s = true → strip_line_comment in_str s = s.
Proof.
  intros Hs. rewrite <- (append_empty s) at 1.
  rewrite strip_line_comment_word by done. apply append_empty.
Qed.

Lemma span_ident_ident (s : string) :
  forallb_string is_ident_char s = true → span_ident s = (s, EmptyString).
Proof.
  intros Hs. rewrite <- (append_empty s) at 1.
  by apply span_ident_word.
Qed.

Lemma drop_blanks_word (s r : string) :
  is_identifier s = true → drop_blanks (s +:+ r) = s +:+ r.
Proof.
  destruct s as [|c s]; [done|]. unfold is_identifier.
  intros [_ [Hc _]%andb_prop]%andb_prop.
  rewrite append_cons. simpl. by rewrite (ident_char_not_blank c Hc).
Qed.

(** What follows the [#] in [#define NAME rest], when [rest] is empty or
    starts with a blank. *)
Lemma parse_directive_define (whole name rest : string) :
  is_identifier name = true →
  rest = EmptyString ∨ (∃ r, rest = String " " r) →
  parse_directive whole ("define " +:+ name +:+ rest) = Define name (trim rest).
Proof.
  intros Hid Hrest. pose proof (is_identifier_chars name Hid) as Hchars.
  assert (span_ident rest = (EmptyString, rest)) as Hspan
    by (destruct Hrest as [->|[r ->]]; reflexivity).
  unfold parse_directive.
  change (drop_blanks ("define " +:+ name +:+ rest))
    with ("define" +:+ String " " (name +:+ rest)).
  rewrite (span_ident_word "define" (String " " (name +:+ rest)) eq_refl eq_refl).
  rewrite String.eqb_refl.
  change (drop_blanks (String " " (name +:+ rest))) with (drop_blanks (name +:+ rest)).
  rewrite (drop_blanks_word name rest Hid).
  rewrite (span_ident_word name rest Hchars Hspan), Hid.
  by destruct Hrest as [->|[r ->]].
Qed.

(** [#define NAME] is read as the definition of NAME with no value. *)
Lemma classify_bare_define (name : string) :
  is_identifier name = true →
  classify ("#define " +:+ name) = Define name EmptyString.
Proof.
  intros Hid. pose proof (is_identifier_chars name Hid) as Hchars.
  change (classify ("#define " +:+ name))
    with (parse_directive ("#define " +:+ name)
            (strip_line_comment false ("define" +:+ String " " name))).
  rewrite (strip_line_comment_word false "define" (String " " name) eq_refl).
  rewrite (strip_line_comment_step false " " name eq_refl eq_refl).
  rewrite strip_line_comment_ident by done.
  rewrite <- (append_empty name) at 2.
  change ("define" +:+ String " " (name +:+ EmptyString))
    with ("define " +:+ name +:+ EmptyString).
  rewrite parse_directive_define by auto. reflexivity.
Qed.

(** [#define NAME DIGITS] is read as the definition of NAME with the digits
    as its replacement text. *)
Lemma classify_valued_define (name digits : string) :
  is_identifier name = true → forallb_string is_digit digits = true →
  classify ("#define " +:+ name +:+ " " +:+ digits) = Define name digits.
Proof.
  intros Hid Hdig. pose proof (is_identifier_chars name Hid) as Hchars.
  assert (forallb_string is_ident_char digits = true) as Hdchars
    by (revert Hdig; apply forallb_string_impl, digit_ident_char).
  change (classify ("#define " +:+ name +:+ " " +:+ digits))
    with (parse_directive ("#define " +:+ name +:+ " " +:+ digits)
            (strip_line_comment false
               ("define" +:+ String " " (name +:+ " " +:+ digits)))).
  rewrite (strip_line_comment_word false "define" _ eq_refl).
  rewrite (strip_line_comment_step false " " _ eq_refl eq_refl).
  rewrite (strip_line_comment_word false name _ Hchars).
  change (" " +:+ digits) with (String " " digits).
  rewrite (strip_line_comment_step false " " _ eq_refl eq_refl).
  rewrite strip_line_comment_ident by done.
  change ("define" +:+ String " " (name +:+ String " " digits))
    with ("define " +:+ name +:+ String " " digits).
  rewrite parse_directive_define by eauto.
  change (trim (String " " digits)) with (trim digits).
  by rewrite trim_ident.
Qed.

(** The value of a decimal literal is an integer. *)
Lemma value_of_decimal (digits : string) :
  is_decimal_literal digits = true →
  value_of digits = VInt (digits_value 0 digits).
Proof.
  intros Hdec. unfold value_of. rewrite Hdec.
  destruct digits; [discriminate Hdec|done].
Qed.

(** *** Values *)

Lemma value_of_absent (body : string) :
  value_of body = VAbsent ↔ body = EmptyString.
Proof.
  unfold value_of. destruct (String.eqb_spec body EmptyString) as [->|Hne].
  - done.
  - split; [|done].
    destruct (is_decimal_literal body); [done|].
    by destruct (is_identifier body || is_string_literal body).
Qed.

(** *** The macro table *)

Lemma process_lines_defines (ls : list line) (env : gmap string value) :
  process_lines env ls = foldl enter env (defines ls).
Proof.
  unfold process_lines. revert env.
  induction ls as [|l ls IH]; intros env; [done|].
  destruct l; simpl; by rewrite IH.
Qed.

Lemma foldl_enter_list_to_map (l : list (string * value)) :
  NoDup (l.*1) → foldl enter ∅ l = list_to_map l.
Proof.
  induction l as [|[n v] l IH] using rev_ind; [done|].
  rewrite fmap_app, NoDup_app. intros (Hl & Hfresh & _).
  rewrite foldl_app, IH by done. simpl. unfold enter at 1; simpl.
  rewrite list_to_map_snoc; [done|].
  intros Hin. apply (Hfresh n Hin). simpl. by left.
Qed.

(** When no macro is defined twice, the table holds exactly the macros
    that the header defines, whatever their order. *)
Lemma preprocess_lookup (text : string) (n : string) (v : value) :
  NoDup ((defines (classify <$> lines text)).*1) →
  preprocess text !! n = Some v ↔ (n, v) ∈ defines (classify <$> lines text).
Proof.
  intros Hnd. unfold preprocess.
  rewrite process_lines_defines, foldl_enter_list_to_map by done.
  symmetry. by apply elem_of_list_to_map.
Qed.

Lemma preprocess_list_to_map (text : string) :
  NoDup ((defines (classify <$> lines text)).*1) →
  preprocess text = list_to_map (defines (classify <$> lines text)).
Proof.
  intros Hnd. unfold preprocess.
  by rewrite process_lines_defines, foldl_enter_list_to_map.
Qed.

(** A later definition of a name replaces an earlier one. *)
Lemma process_lines_last (ls : list line) (n body : string) (env : gmap string value) :
  process_lines env (ls ++ [Define n body]) !! n = Some (value_of body).
Proof.
  unfold process_lines. rewrite foldl_app. simpl. apply lookup_insert_eq.
Qed.

End reader_facts.

Import Lex Cpp Cfg.

(** ** The header *)

(** The header is its lines joined by newlines: reading it line by line
    loses nothing. *)
Lemma header_is_its_lines : Src.sqlite_cfg_h = join_with LF source_lines.
Proof. by_evaluation. Qed.

(** No line is continued on the next one, and there are no block comments
    and no string literals: the header can be read one line at a time. *)
Lemma header_is_line_oriented :
  Forall (λ l, count_char BACKSLASH l = 0%nat ∧ mentions "/*" l = false
               ∧ count_char DQUOTE l = 0%nat) source_lines.
Proof.
  assert (forallb (λ l, (count_char BACKSLASH l =? 0)%nat && negb (mentions "/*" l)
                        && (count_char DQUOTE l =? 0)%nat) source_lines = true)
    as Hb by by_evaluation.
  rewrite forallb_forall in Hb. apply Forall_forall. intros l Hl.
  apply list_elem_of_In, Hb in Hl.
  apply andb_prop in Hl as [[H1 H2]%andb_prop H3].
  apply Nat.eqb_eq in H1, H3. apply negb_true_iff in H2. done.
Qed.

(** What the reader makes of the 30 lines. *)
Lemma parsed_eq :
  parsed =
  [ Comment "Platform Configuration"; Blank;
    Define "SQLITE_OS_OTHER" "1"; Define "SQLITE_BYTEORDER" "1234"; Blank;
    Define "HAVE_ISNAN" "1"; Define "HAVE_USLEEP" "1";
    Define "HAVE_MALLOC_USABLE_SIZE" "1"; Blank;
    Comment "Recommended Options"; Blank;
    Define "SQLITE_DQS" "0"; Define "SQLITE_THREADSAFE" "0";
    Define "SQLITE_DEFAULT_MEMSTATUS" "0";
    Define "SQLITE_DEFAULT_WAL_SYNCHRONOUS" "1";
    Define "SQLITE_LIKE_DOESNT_MATCH_BLOBS" "";
    Define "SQLITE_MAX_EXPR_DEPTH" "0"; Define "SQLITE_OMIT_DECLTYPE" "";
    Define "SQLITE_OMIT_DEPRECATED" "";
    Define "SQLITE_OMIT_PROGRESS_CALLBACK" "";
    Define "SQLITE_OMIT_SHARED_CACHE" ""; Define "SQLITE_OMIT_AUTOINIT" "";
    Define "SQLITE_USE_ALLOCA" ""; Blank;
    Comment "Need this to access WAL databases without the use of shared memory.";
    Define "SQLITE_DEFAULT_LOCKING_MODE" "1";
    Comment "Go uses UTF-8 everywhere."; Define "SQLITE_OMIT_UTF16" "";
    Comment "Remove some testing code."; Define "SQLITE_UNTESTABLE" "" ].
Proof. by_evaluation. Qed.

Lemma directives_eq :
  directives =
  [ ("SQLITE_OS_OTHER", VInt 1); ("SQLITE_BYTEORDER", VInt 1234);
    ("HAVE_ISNAN", VInt 1); ("HAVE_USLEEP", VInt 1);
    ("HAVE_MALLOC_USABLE_SIZE", VInt 1); ("SQLITE_DQS", VInt 0);
    ("SQLITE_THREADSAFE", VInt 0); ("SQLITE_DEFAULT_MEMSTATUS", VInt 0);
    ("SQLITE_DEFAULT_WAL_SYNCHRONOUS", VInt 1);
    ("SQLITE_LIKE_DOESNT_MATCH_BLOBS", VAbsent);
    ("SQLITE_MAX_EXPR_DEPTH", VInt 0); ("SQLITE_OMIT_DECLTYPE", VAbsent);
    ("SQLITE_OMIT_DEPRECATED", VAbsent);
    ("SQLITE_OMIT_PROGRESS_CALLBACK", VAbsent);
    ("SQLITE_OMIT_SHARED_CACHE", VAbsent); ("SQLITE_OMIT_AUTOINIT", VAbsent);
    ("SQLITE_USE_ALLOCA", VAbsent); ("SQLITE_DEFAULT_LOCKING_MODE", VInt 1);
    ("SQLITE_OMIT_UTF16", VAbsent); ("SQLITE_UNTESTABLE", VAbsent) ].
Proof. by_evaluation. Qed.

Lemma directives_NoDup : NoDup (directives.*1).
Proof. rewrite directives_eq. apply (bool_decide_unpack _). vm_compute. exact I. Qed.

(** The flag mapping holds exactly the macros of the header. *)
Lemma flags_lookup (n : string) (v : value) :
  flags !! n = Some v ↔ (n, v) ∈ directives.
Proof.
  pose proof directives_NoDup as Hnd. revert Hnd.
  unfold flags, directives, parsed, source_lines.
  apply preprocess_lookup.
Qed.

Lemma flags_list_to_map : flags = list_to_map directives.
Proof.
  pose proof directives_NoDup as Hnd. revert Hnd.
  unfold flags, directives, parsed, source_lines.
  apply preprocess_list_to_map.
Qed.

Lemma flags_Forall (P : string * value → Prop) :
  Forall P directives → ∀ n v, flags !! n = Some v → P (n, v).
Proof.
  intros HP n v Hnv. apply flags_lookup in Hnv.
  by apply (proj1 (Forall_forall P directives) HP).
Qed.

(** ** Single flags *)

(** C5: the platform capabilities isnan, usleep and malloc_usable_size are
    declared available: HAVE_ISNAN, HAVE_USLEEP and HAVE_MALLOC_USABLE_SIZE
    are each defined with the integer value 1. *)
Theorem platform_capabilities_available :
  flags !! "HAVE_ISNAN" = Some (VInt 1) ∧
  flags !! "HAVE_USLEEP" = Some (VInt 1) ∧
  flags !! "HAVE_MALLOC_USABLE_SIZE" = Some (VInt 1).
Proof.
  repeat split; apply flags_lookup; rewrite directives_eq; set_solver.
Qed.

(** C9: the target platform is declared as a non-standard OS with
    little-endian byte order: SQLITE_OS_OTHER is defined with the value 1
    and SQLITE_BYTEORDER with the value 1234.  They are the first two
    macros of the block headed "Platform Configuration". *)
Theorem platform_os_other_little_endian :
  flags !! "SQLITE_OS_OTHER" = Some (VInt 1) ∧
  flags !! "SQLITE_BYTEORDER" = Some (VInt 1234) ∧
  ∃ b, block_named "Platform Configuration" (blocks parsed) = Some b ∧
       take 2 (entries b) = [("SQLITE_OS_OTHER", VInt 1); ("SQLITE_BYTEORDER", VInt 1234)].
Proof.
  split; [by_evaluation|]. split; [by_evaluation|].
  eexists. split; by_evaluation.
Qed.

(** C6: a default locking mode is set: SQLITE_DEFAULT_LOCKING_MODE is
    defined with the integer value 1.  Its directive stands on line 26,
    directly under the comment of line 25, which says that it is needed to
    access WAL databases without the use of shared memory. *)
Theorem default_locking_mode_is_1 :
  flags !! "SQLITE_DEFAULT_LOCKING_MODE" = Some (VInt 1) ∧
  parsed !! 24%nat =
    Some (Comment "Need this to access WAL databases without the use of shared memory.") ∧
  parsed !! 25%nat = Some (Define "SQLITE_DEFAULT_LOCKING_MODE" "1").
Proof.
  split; [by_evaluation|]. rewrite parsed_eq. by split.
Qed.

(** C4: UTF-16 support and shared-cache mode are disabled: SQLITE_OMIT_UTF16
    and SQLITE_OMIT_SHARED_CACHE are both in the flag mapping, as
    presence-only flags: lines 21 and 28 define them with no replacement
    text. *)
Theorem utf16_and_shared_cache_omitted :
  flags !! "SQLITE_OMIT_UTF16" = Some VAbsent ∧
  flags !! "SQLITE_OMIT_SHARED_CACHE" = Some VAbsent ∧
  source_lines !! 20%nat = Some "#define SQLITE_OMIT_SHARED_CACHE" ∧
  source_lines !! 27%nat = Some "#define SQLITE_OMIT_UTF16" ∧
  is_bare_define (classify "#define SQLITE_OMIT_SHARED_CACHE") = true ∧
  is_bare_define (classify "#define SQLITE_OMIT_UTF16") = true.
Proof.
  split; [apply flags_lookup; rewrite directives_eq; set_solver|].
  split; [apply flags_lookup; rewrite directives_eq; set_solver|].
  repeat split; by_evaluation.
Qed.

(** SQLITE_THREADSAFE is 0, and it is the only flag whose name speaks of
    threads. *)
Lemma threadsafe_is_0 :
  flags !! "SQLITE_THREADSAFE" = Some (VInt 0) ∧
  filter (λ e, mentions "THREAD" (upcase e.1) = true) directives
  = [("SQLITE_THREADSAFE", VInt 0)].
Proof. split; by_evaluation. Qed.

(** ** The flag mapping as a whole *)

(** C8: every flag name is defined exactly once: no name appears in two
    #define lines.  So the flag list is a function from names to values: the
    mapping holds a value for a name exactly when a directive gives that
    name that value, and reading the list with the first or with the last
    definition of a name winning yields the same mapping. *)
Theorem flag_names_defined_once :
  NoDup (omap line_name parsed) ∧
  omap line_name parsed = directives.*1 ∧
  (∀ n v, (n, v) ∈ directives ↔ flags !! n = Some v) ∧
  (list_to_map directives : gmap string value) = flags ∧
  (list_to_map (reverse directives) : gmap string value) = flags ∧
  size flags = 20%nat.
Proof.
  assert (omap line_name parsed = directives.*1) as Hnames by by_evaluation.
  assert ((list_to_map directives : gmap string value) = flags) as Hmap
    by (symmetry; apply flags_list_to_map).
  split; [rewrite Hnames; apply directives_NoDup|].
  split; [done|].
  split; [intros n v; symmetry; apply flags_lookup|].
  split; [done|].
  split.
  - rewrite <- Hmap. symmetry.
    apply list_to_map_proper; [apply directives_NoDup|].
    symmetry. apply reverse_Permutation.
  - rewrite <- Hmap, map_size_list_to_map by apply directives_NoDup.
    by rewrite directives_eq.
Qed.

(** C7: the value of every entry of the flag mapping has one of exactly
    three shapes: an integer, a string or enumerated mode (one identifier or
    string literal), or absent (a presence-only marker).  No entry has
    another shape. *)
Theorem flag_values_have_three_shapes (n : string) (v : value) :
  flags !! n = Some v →
  (v = VAbsent ∨ (∃ k, v = VInt k) ∨ (∃ s, v = VMode s)) ∧ (∀ s, v ≠ VOther s).
Proof.
  intros Hnv.
  assert (is_flag_shape v = true) as Hshape.
  { apply (flags_Forall (λ e, is_flag_shape e.2 = true)) in Hnv; [done|].
    rewrite directives_eq. repeat constructor. }
  destruct v; try discriminate Hshape; split; eauto; done.
Qed.

Lemma flag_values_have_three_shapes_at_byteorder :
  flags !! "SQLITE_BYTEORDER" = Some (VInt 1234) ∧
  ((VInt 1234 = VAbsent ∨ (∃ k, VInt 1234 = VInt k) ∨ (∃ s, VInt 1234 = VMode s))
   ∧ (∀ s, VInt 1234 ≠ VOther s)).
Proof.
  split; [by_evaluation|].
  apply (flag_values_have_three_shapes "SQLITE_BYTEORDER"). by_evaluation.
Defined.

(** ** The block of recommended options *)

(** C10: every integer-valued flag of the block headed "Recommended Options"
    other than SQLITE_DEFAULT_WAL_SYNCHRONOUS is set to 0: the integer-valued
    flags of the block are SQLITE_DQS, SQLITE_THREADSAFE,
    SQLITE_DEFAULT_MEMSTATUS, SQLITE_DEFAULT_WAL_SYNCHRONOUS and
    SQLITE_MAX_EXPR_DEPTH, and the four others all have the value 0. *)
Theorem recommended_integer_options_are_0 :
  ∃ b, block_named "Recommended Options" (blocks parsed) = Some b ∧
    (filter (λ e, is_int e.2 = true) (entries b)).*1
      = [ "SQLITE_DQS"; "SQLITE_THREADSAFE"; "SQLITE_DEFAULT_MEMSTATUS";
          "SQLITE_DEFAULT_WAL_SYNCHRONOUS"; "SQLITE_MAX_EXPR_DEPTH" ] ∧
    (∀ n k, (n, VInt k) ∈ entries b →
            n ≠ "SQLITE_DEFAULT_WAL_SYNCHRONOUS" → k = 0) ∧
    flags !! "SQLITE_DQS" = Some (VInt 0) ∧
    flags !! "SQLITE_THREADSAFE" = Some (VInt 0) ∧
    flags !! "SQLITE_DEFAULT_MEMSTATUS" = Some (VInt 0) ∧
    flags !! "SQLITE_MAX_EXPR_DEPTH" = Some (VInt 0).
Proof.
  eexists. split; [by_evaluation|]. split; [by_evaluation|]. split.
  - intros n k Hin Hne. cbn [entries] in Hin.
    repeat (apply elem_of_cons in Hin as [Heq|Hin];
            [injection Heq as -> Hk; try discriminate Hk; try congruence|]).
    by apply elem_of_nil in Hin.
  - repeat split; by_evaluation.
Qed.

(** ** The journal mode *)

Lemma no_journal_mode_entry :
  Forall (λ e, selects_wal_journal_mode e = false) directives.
Proof. rewrite directives_eq. repeat constructor. Qed.

(** C1, counterexample: the synchronous level is there, but no entry of the
    mapping selects a journal mode, so the claim as it is stated fails. *)
Lemma journal_mode_wal_not_selected :
  flags !! "SQLITE_DEFAULT_WAL_SYNCHRONOUS" = Some (VInt 1) ∧
  ¬ journal_mode_wal_as_stated.
Proof.
  split; [by_evaluation|].
  intros [(n & v & Hnv & Hsel) _].
  apply (flags_Forall _ no_journal_mode_entry) in Hnv.
  congruence.
Qed.

(** C1, amended: SQLITE_DEFAULT_WAL_SYNCHRONOUS is defined with the integer
    value 1; no entry of the flag mapping selects a journal mode: the only
    flag whose name speaks of WAL is SQLITE_DEFAULT_WAL_SYNCHRONOUS, no flag
    name speaks of a journal, and no flag has a mode for its value. *)
Theorem wal_synchronous_is_1_no_journal_mode :
  flags !! "SQLITE_DEFAULT_WAL_SYNCHRONOUS" = Some (VInt 1) ∧
  (∀ n v, flags !! n = Some v → selects_wal_journal_mode (n, v) = false) ∧
  filter (λ e, mentions "WAL" (upcase e.1) = true) directives
    = [("SQLITE_DEFAULT_WAL_SYNCHRONOUS", VInt 1)] ∧
  filter (λ e, mentions "JOURNAL" (upcase e.1) = true) directives = [] ∧
  (∀ n v, flags !! n = Some v → v = VAbsent ∨ ∃ k, v = VInt k).
Proof.
  split; [by_evaluation|].
  split; [apply (flags_Forall _ no_journal_mode_entry)|].
  split; [by_evaluation|]. split; [by_evaluation|].
  apply (flags_Forall (λ e, e.2 = VAbsent ∨ ∃ k, e.2 = VInt k)).
  rewrite directives_eq.
  repeat (constructor; [simpl; eauto|]). constructor.
Qed.

(** ** The lines of the file *)

(** C2, counterexample: the first line of the file is a comment, the second
    is blank and line 16 defines a name without a value; none of them is a
    [#define NAME VALUE]. *)
Lemma not_all_lines_valued_defines :
  source_lines !! 0%nat = Some "// Platform Configuration" ∧
  classify "// Platform Configuration" = Comment "Platform Configuration" ∧
  source_lines !! 1%nat = Some "" ∧
  source_lines !! 15%nat = Some "#define SQLITE_LIKE_DOESNT_MATCH_BLOBS" ∧
  classify "#define SQLITE_LIKE_DOESNT_MATCH_BLOBS"
    = Define "SQLITE_LIKE_DOESNT_MATCH_BLOBS" "" ∧
  ¬ Forall (λ l, is_valued_define (classify l) = true) source_lines ∧
  ¬ all_lines_valued_defines_as_stated.
Proof.
  assert (¬ Forall (λ l, is_valued_define (classify l) = true) source_lines) as Hno.
  { intros Hall.
    assert ("// Platform Configuration" ∈ source_lines) as Hin
      by (apply (list_elem_of_lookup_2 _ 0%nat); by_evaluation).
    apply (proj1 (Forall_forall _ _) Hall) in Hin. discriminate Hin. }
  repeat split; try by_evaluation; [done|].
  intros [_ Hall]. by apply Hno.
Qed.

(** C2, amended: the file has 29 newline characters and 30 lines, the last
    one not terminated.  Every line is blank, a [//] comment or the
    definition of an object-like macro: 5 lines are blank, 5 are comments,
    11 have the form [#define NAME VALUE] with a decimal integer for VALUE
    and 9 the form [#define NAME]. *)
Theorem lines_of_the_header :
  newline_count Src.sqlite_cfg_h = 29%nat ∧
  length source_lines = 30%nat ∧
  Forall (λ l, is_flag_list_line l = true) parsed ∧
  length (filter (λ l, is_blank_line l = true) parsed) = 5%nat ∧
  length (filter (λ l, is_comment l = true) parsed) = 5%nat ∧
  length (filter (λ l, is_valued_define l = true) parsed) = 11%nat ∧
  length (filter (λ l, is_bare_define l = true) parsed) = 9%nat ∧
  Forall (λ l, ∀ n b, l = Define n b → b = EmptyString ∨ is_decimal_literal b = true)
    parsed.
Proof.
  split; [by_evaluation|]. split; [by_evaluation|].
  split; [rewrite parsed_eq; repeat constructor|].
  repeat (split; [by_evaluation|]).
  rewrite parsed_eq.
  repeat (constructor; [intros n b Heq; try discriminate Heq;
                        injection Heq as _ <-; auto|]).
  constructor.
Qed.

(** ** General facts about macro tables *)

Import Use.

(** Entering a list of macros: the last definition of a name wins, and
    names that the list does not define keep their value. *)
Lemma foldl_enter_union (l : list (string * value)) (env : gmap string value) :
  foldl enter env l = list_to_map (reverse l) ∪ env.
Proof.
  induction l as [|[n v] l IH] using rev_ind.
  - simpl. by rewrite (left_id_L ∅ (∪)).
  - rewrite foldl_app, reverse_app, IH. cbn [foldl]. unfold enter at 1.
    change (reverse [(n, v)] ++ reverse l) with ((n, v) :: reverse l).
    by rewrite list_to_map_cons, insert_union_l.
Qed.

(** Reordering the lines reorders the macros they define. *)
Lemma defines_Permutation (l1 l2 : list line) :
  l1 ≡ₚ l2 → defines l1 ≡ₚ defines l2.
Proof.
  induction 1 as [|x l1 l2 _ IH|x y l|l1 l2 l3 _ IH1 _ IH2].
  - done.
  - destruct x; simpl; by rewrite ?IH.
  - destruct x, y; simpl; try done. apply perm_swap.
  - by etrans.
Qed.

Lemma process_lines_union (ls : list line) (env : gmap string value) :
  process_lines env ls = list_to_map (reverse (defines ls)) ∪ env.
Proof. by rewrite process_lines_defines, foldl_enter_union. Qed.



(** When no macro is defined twice, the order of the lines does not
    matter. *)
Lemma process_lines_Permutation (ls ls' : list line) (env : gmap string value) :
  NoDup ((defines ls).*1) → ls' ≡ₚ ls →
  process_lines env ls' = process_lines env ls.
Proof.
  intros Hnd Hperm. rewrite !process_lines_union. f_equal.
  apply defines_Permutation in Hperm.
  apply list_to_map_proper.
  - rewrite reverse_Permutation, Hperm. done.
  - by rewrite !reverse_Permutation.
Qed.

Lemma defines_app (l1 l2 : list line) :
  defines (l1 ++ l2) = defines l1 ++ defines l2.
Proof.
  induction l1 as [|l l1 IH]; [done|].
  destruct l; simpl; by rewrite ?IH.
Qed.

Lemma process_lines_NoDup (ls : list line) :
  NoDup ((defines ls).*1) → process_lines ∅ ls = list_to_map (defines ls).
Proof.
  intros Hnd. by rewrite process_lines_defines, foldl_enter_list_to_map.
Qed.

(** A line in the middle of a header in which no macro is defined twice. *)
Lemma process_lines_middle (A B : list line) (l : line) :
  NoDup ((defines (A ++ l :: B)).*1) →
  process_lines ∅ (A ++ B)
  = match entered l with
    | Some n => delete n (process_lines ∅ (A ++ l :: B))
    | None => process_lines ∅ (A ++ l :: B)
    end.
Proof.
  intros Hnd. rewrite (process_lines_NoDup (A ++ l :: B) Hnd).
  rewrite defines_app in Hnd |- *.
  destruct l as [| |n b| |];
    try (simpl in *; rewrite <- defines_app in Hnd |- *;
         by rewrite (process_lines_NoDup (A ++ B) Hnd)).
  simpl in *.
  assert (NoDup ((n, value_of b) :: defines A ++ defines B).*1) as Hnd'.
  { rewrite fmap_cons, fmap_app. rewrite fmap_app, fmap_cons in Hnd.
    by rewrite <- Permutation_middle in Hnd. }
  rewrite (list_to_map_proper _ ((n, value_of b) :: defines A ++ defines B) Hnd)
    by (by rewrite <- Permutation_middle).
  rewrite fmap_cons in Hnd'. apply NoDup_cons in Hnd' as [Hfresh Hnd'].
  rewrite list_to_map_cons, delete_insert_eq.
  rewrite <- defines_app in Hfresh, Hnd' |- *.
  rewrite (process_lines_NoDup (A ++ B) Hnd').
  rewrite delete_id; [done|].
  by apply not_elem_of_list_to_map_1.
Qed.

(** Taking one line out of a header takes the macro of that line out of
    the table, and nothing else. *)
Lemma process_lines_delete (ls : list line) (i : nat) (l : line) :
  NoDup ((defines ls).*1) → ls !! i = Some l →
  process_lines ∅ (delete i ls)
  = match entered l with
    | Some n => delete n (process_lines ∅ ls)
    | None => process_lines ∅ ls
    end.
Proof.
  intros Hnd Hl. pose proof (take_drop_middle ls i l Hl) as Hsplit.
  rewrite delete_take_drop. rewrite <- Hsplit in Hnd.
  assert (process_lines ∅ ls = process_lines ∅ (take i ls ++ l :: drop (S i) ls))
    as -> by (by rewrite Hsplit).
  by apply process_lines_middle.
Qed.

(** ** The header in a translation unit *)



(** X3: the lines of the header can be put in any order: the resulting
    macro table is the same. *)
Theorem include_cfg_any_order (ls : list line) (env : gmap string value) :
  ls ≡ₚ parsed → process_lines env ls = include_cfg env.
Proof.
  intros Hperm. pose proof directives_NoDup as Hnd. revert Hnd Hperm.
  unfold include_cfg, directives, parsed, source_lines. intros Hnd Hperm.
  by apply process_lines_Permutation.
Qed.

Lemma include_cfg_any_order_reversed :
  reverse parsed ≡ₚ parsed ∧ process_lines ∅ (reverse parsed) = include_cfg ∅.
Proof.
  split; [apply reverse_Permutation|].
  apply (include_cfg_any_order (reverse parsed) ∅), reverse_Permutation.
Defined.

(** X4: the entries are independent: taking one line out of the header
    takes the flag that this line defines out of the flag mapping, if it
    defines one, and leaves every other flag as it is. *)
Theorem flags_without_line (i : nat) (l : line) :
  parsed !! i = Some l →
  process_lines ∅ (delete i parsed)
  = match entered l with Some n => delete n flags | None => flags end.
Proof.
  pose proof directives_NoDup as Hnd. revert Hnd.
  unfold flags, preprocess, directives, parsed, source_lines. intros Hnd Hl.
  by apply process_lines_delete.
Qed.

Lemma flags_without_line_4 :
  parsed !! 3%nat = Some (Define "SQLITE_BYTEORDER" "1234") ∧
  process_lines ∅ (delete 3%nat parsed) = delete "SQLITE_BYTEORDER" flags.
Proof.
  split; [by_evaluation|].
  apply (flags_without_line 3 (Define "SQLITE_BYTEORDER" "1234")). by_evaluation.
Defined.

(** ** The inventory of flags *)

Lemma flag_names_directives : flag_names = directives.*1.
Proof. rewrite directives_eq. reflexivity. Qed.

(** X5: the header defines the 20 names of [flag_names] and no others:
    looking up any other name in the flag mapping finds nothing. *)
Theorem flags_defined_names (n : string) :
  is_Some (flags !! n) ↔ n ∈ flag_names.
Proof.
  rewrite flag_names_directives. split.
  - intros [v Hv]. apply flags_lookup in Hv.
    by apply (list_elem_of_fmap_2 fst) in Hv.
  - intros ([n' v] & -> & Hin)%list_elem_of_fmap.
    exists v. by apply flags_lookup.
Qed.

(** X6: the flags defined with no value are exactly the nine names of
    [presence_only_names]. *)
Theorem flags_presence_only (n : string) :
  flags !! n = Some VAbsent ↔ n ∈ presence_only_names.
Proof.
  rewrite flags_lookup.
  assert (presence_only_names = (filter (λ e, e.2 = VAbsent) directives).*1) as ->
    by (rewrite directives_eq; reflexivity).
  split.
  - intros Hin. apply (list_elem_of_fmap_2 fst _ (n, VAbsent)).
    by apply list_elem_of_filter.
  - intros ([n' v] & -> & [Hv Hin]%list_elem_of_filter)%list_elem_of_fmap.
    simpl in Hv. by subst v.
Qed.

(** X7: the value of a flag fits its name: every [SQLITE_OMIT_] flag is
    defined with no value, every [HAVE_] flag is 1 and every
    [SQLITE_DEFAULT_] flag is an integer. *)
Theorem flag_values_fit_names (n : string) (v : value) :
  flags !! n = Some v →
  (is_prefix "SQLITE_OMIT_" n = true → v = VAbsent) ∧
  (is_prefix "HAVE_" n = true → v = VInt 1) ∧
  (is_prefix "SQLITE_DEFAULT_" n = true → ∃ k, v = VInt k).
Proof.
  intros Hnv.
  assert (value_fits_name (n, v) = true) as Hfit.
  { apply (flags_Forall (λ e, value_fits_name e = true)); [|done].
    rewrite directives_eq. repeat constructor. }
  unfold value_fits_name in Hfit; cbn [fst snd] in Hfit.
  apply andb_prop in Hfit as [[Homit Hhave]%andb_prop Hdef].
  repeat split.
  - intros Hp. rewrite Hp in Homit. by apply bool_decide_eq_true in Homit.
  - intros Hp. rewrite Hp in Hhave. by apply bool_decide_eq_true in Hhave.
  - intros Hp. rewrite Hp in Hdef. destruct v; try discriminate Hdef. eauto.
Qed.

Lemma flag_values_fit_names_at_autoinit :
  flags !! "SQLITE_OMIT_AUTOINIT" = Some VAbsent ∧
  ((is_prefix "SQLITE_OMIT_" "SQLITE_OMIT_AUTOINIT" = true → VAbsent = VAbsent) ∧
   (is_prefix "HAVE_" "SQLITE_OMIT_AUTOINIT" = true → VAbsent = VInt 1) ∧
   (is_prefix "SQLITE_DEFAULT_" "SQLITE_OMIT_AUTOINIT" = true → ∃ k, VAbsent = VInt k)).
Proof.
  split; [by_evaluation|].
  apply (flag_values_fit_names "SQLITE_OMIT_AUTOINIT" VAbsent). by_evaluation.
Defined.

(** X8: apart from the byte order 1234, every integer in the header is 0
    or 1. *)
Theorem flag_integers_are_switches (n : string) (k : Z) :
  flags !! n = Some (VInt k) →
  (n = "SQLITE_BYTEORDER" ∧ k = 1234) ∨ k = 0 ∨ k = 1.
Proof.
  intros Hnk. apply flags_lookup in Hnk. rewrite directives_eq in Hnk.
  repeat (apply elem_of_cons in Hnk as [Heq|Hnk];
          [first [discriminate Heq | injection Heq as -> ->; auto]|]).
  by apply elem_of_nil in Hnk.
Qed.

Lemma flag_integers_are_switches_at_dqs :
  flags !! "SQLITE_DQS" = Some (VInt 0) ∧
  (("SQLITE_DQS" = "SQLITE_BYTEORDER" ∧ 0 = 1234) ∨ 0 = 0 ∨ 0 = 1).
Proof.
  split; [by_evaluation|].
  apply (flag_integers_are_switches "SQLITE_DQS" 0). by_evaluation.
Defined.

(** X9: every flag name is an upper-case identifier that starts with
    [SQLITE_] or [HAVE_]. *)
Theorem flag_names_well_formed (n : string) :
  is_Some (flags !! n) →
  is_identifier n = true ∧ upcase n = n ∧
  (is_prefix "SQLITE_" n = true ∨ is_prefix "HAVE_" n = true).
Proof.
  intros [v Hnv].
  assert (is_flag_name n = true) as Hname.
  { apply (flags_Forall (λ e, is_flag_name e.1 = true) ) in Hnv; [done|].
    rewrite directives_eq. repeat constructor. }
  unfold is_flag_name in Hname.
  apply andb_prop in Hname as [[Hid Hup]%andb_prop Hpre].
  apply String.eqb_eq in Hup. apply orb_prop in Hpre.
  exact (conj Hid (conj Hup Hpre)).
Qed.

Lemma flag_names_well_formed_at_usleep :
  is_Some (flags !! "HAVE_USLEEP") ∧
  (is_identifier "HAVE_USLEEP" = true ∧ upcase "HAVE_USLEEP" = "HAVE_USLEEP" ∧
   (is_prefix "SQLITE_" "HAVE_USLEEP" = true ∨ is_prefix "HAVE_" "HAVE_USLEEP" = true)).
Proof.
  assert (is_Some (flags !! "HAVE_USLEEP")) as H by (eexists; by_evaluation).
  split; [exact H|]. exact (flag_names_well_formed "HAVE_USLEEP" H).
Defined.

(** ** The blocks of the header *)

(** X10: the comments divide the header into blocks: nothing is defined
    before the first comment, five macros stand under "Platform
    Configuration", twelve under "Recommended Options", and each of the
    three comments at the end explains exactly one macro. *)
Theorem header_blocks :
  (λ b, (heading b, (entries b).*1)) <$> blocks parsed
  = [ ("", []);
      ("Platform Configuration",
       [ "SQLITE_OS_OTHER"; "SQLITE_BYTEORDER"; "HAVE_ISNAN"; "HAVE_USLEEP";
         "HAVE_MALLOC_USABLE_SIZE" ]);
      ("Recommended Options",
       [ "SQLITE_DQS"; "SQLITE_THREADSAFE"; "SQLITE_DEFAULT_MEMSTATUS";
         "SQLITE_DEFAULT_WAL_SYNCHRONOUS"; "SQLITE_LIKE_DOESNT_MATCH_BLOBS";
         "SQLITE_MAX_EXPR_DEPTH"; "SQLITE_OMIT_DECLTYPE";
         "SQLITE_OMIT_DEPRECATED"; "SQLITE_OMIT_PROGRESS_CALLBACK";
         "SQLITE_OMIT_SHARED_CACHE"; "SQLITE_OMIT_AUTOINIT";
         "SQLITE_USE_ALLOCA" ]);
      ("Need this to access WAL databases without the use of shared memory.",
       [ "SQLITE_DEFAULT_LOCKING_MODE" ]);
      ("Go uses UTF-8 everywhere.", [ "SQLITE_OMIT_UTF16" ]);
      ("Remove some testing code.", [ "SQLITE_UNTESTABLE" ]) ].
Proof. by_evaluation. Qed.
